(** * Authentication & Session Integrity Engine

    A shallow embedding of the security-relevant parts of the backend
    ([backend/core/security.py], [backend/database/models.py],
    [backend/api/auth.py], [backend/middleware/security.py]) and the
    properties established about them.

    Conventions.
    - Instants ([datetime] values, POSIX timestamps) are integers in [Z],
      in seconds. One call reads the clock once: every
      [datetime.now(timezone.utc)] of a call is the same [now].
    - A Python [str] is the [string] of its UTF-8 bytes; [None] is
      [None].
    - A row is a record. SQLAlchemy fills in a column default when
      the row is inserted, at the flush: on an object that was just
      constructed an attribute that was not given is still [None].
      The one such attribute that a handler reads before the flush is
      [UserSession.risk_score], which therefore is an [option].
    - The functions of the external libraries (python-jose, hashlib,
      hmac, cryptography.fernet, passlib) are the fields of the class
      [Primitives]; what a lemma assumes about them is one of its
      hypotheses. The results of [secrets] and [uuid] are arguments.

    The first part holds the definitions, the second the properties. *)

From Stdlib Require Import ZArith Lia Bool String Ascii List DecimalString DecimalPos DecimalZ.
From stdpp Require Import base option list strings gmap.

Open Scope string_scope.
Open Scope list_scope.
Open Scope Z_scope.

(** ** Python helpers *)

(** [str.split(sep)] for a one-character separator: the result is never
    empty and has one more element than [s] has separators. *)
Fixpoint split (sep : ascii) (s : string) : list string :=
  match s with
  | EmptyString => [EmptyString]
  | String c s' =>
      if Ascii.eqb c sep then EmptyString :: split sep s'
      else match split sep s' with
           | [] => [String c EmptyString]
           | p :: ps => String c p :: ps
           end
  end.

(** [sep in s] for a one-character [sep]. *)
Fixpoint contains (sep : ascii) (s : string) : bool :=
  match s with
  | EmptyString => false
  | String c s' => Ascii.eqb c sep || contains sep s'
  end.

(** Truthiness of an [Optional[str]]: [None] and [""] are falsy. *)
Definition truthy (o : option string) : bool :=
  match o with
  | None => false
  | Some s => negb (String.eqb s "")
  end.

Definition colon : ascii := ":"%char.

(** ** RBAC authorizer ([backend/middleware/security.py]) *)

Module RBACMiddleware.

(** [self.role_permissions] as built by [__init__]. *)
Definition role_permissions : gmap string (list string) :=
  list_to_map
    [ ("super_admin", ["*"]);
      ("admin",
        ["users:read"; "users:write"; "users:delete";
         "drivers:read"; "drivers:write"; "drivers:approve";
         "trips:read"; "trips:write"; "trips:cancel";
         "reports:read"; "audit:read"]);
      ("driver",
        ["profile:read"; "profile:write";
         "trips:read"; "trips:accept"; "trips:complete";
         "earnings:read"]);
      ("passenger",
        ["profile:read"; "profile:write";
         "trips:create"; "trips:read"; "trips:cancel";
         "payments:read"; "payments:write"]);
      ("support",
        ["users:read"; "trips:read"; "trips:write";
         "support_tickets:read"; "support_tickets:write"]);
      ("moderator",
        ["users:read"; "drivers:read"; "trips:read";
         "reports:read"; "content:moderate"]) ].

(** [_has_permission(self, user_role, required_permission)]; the
    mapping held by [self] is the first argument. *)
Definition _has_permission (perms : gmap string (list string))
    (user_role required_permission : string) : bool :=
  let role_perms := default [] (perms !! user_role) in
  if bool_decide ("*" ∈ role_perms) then true
  else if bool_decide (required_permission ∈ role_perms) then true
  else match split colon required_permission with
       | [resource; action] =>
           if bool_decide ((resource +:+ ":*") ∈ role_perms) then true
           else false
       | _ => false
       end.

(** A permission string of the form [resource:action]: exactly one
    colon. *)
Definition resource_action (p resource action : string) : Prop :=
  p = resource +:+ String colon action
  /\ contains colon resource = false /\ contains colon action = false.

(** The permission check of [dispatch]:
    [if required_permission and not self._has_permission(...)] raises
    403, otherwise the request goes on. [true] is "goes on". *)
Definition permission_granted (perms : gmap string (list string))
    (user_role : string) (required_permission : option string) : bool :=
  negb (truthy required_permission
        && negb (_has_permission perms user_role
                   (default "" required_permission))).

End RBACMiddleware.

(** ** Exceptions and results *)

Inductive exn :=
| HTTPException (status_code : Z) (detail : string)
| SecurityException (message : string)
| JWTError (message : string)
| NameError (name : string)
| UnboundLocalError (name : string)
| ValueError (message : string)
| TypeError (message : string).

Inductive result (A : Type) :=
| Return (a : A)
| Raise (e : exn).
Arguments Return {A} a.
Arguments Raise {A} e.

(** ** Text and byte codecs *)

(** [str(n)] and [int(s)] on decimal literals with an optional minus
    sign. [None] is [ValueError]. The other spellings [int] accepts
    (surrounding blanks, a leading plus, underscores) are read as
    [ValueError]. *)
Definition py_str (n : Z) : string := NilZero.string_of_int (Z.to_int n).

(** [bytes.hex()] / [hexdigest()]: two lower-case digits per byte. *)
Definition hex_digit (n : N) : ascii :=
  default "0"%char (String.get (N.to_nat n) "0123456789abcdef").

Fixpoint hexlify (b : string) : string :=
  match b with
  | EmptyString => EmptyString
  | String c b' =>
      String (hex_digit (N_of_ascii c / 16))
        (String (hex_digit (N_of_ascii c mod 16)) (hexlify b'))
  end.

(** A [str] is represented by its UTF-8 bytes, so [str.encode()] is the
    identity and [bytes.decode()] succeeds exactly on well-formed UTF-8
    (no overlong forms, no surrogates, nothing above U+10FFFF). *)
Definition in_range (lo hi : N) (c : ascii) : bool :=
  ((lo <=? N_of_ascii c) && (N_of_ascii c <=? hi))%N.

Definition cont (c : ascii) : bool := in_range 128 191 c.

Fixpoint utf8_valid (b : string) : bool :=
  match b with
  | EmptyString => true
  | String c0 r0 =>
      if in_range 0 127 c0 then utf8_valid r0
      else match r0 with
      | EmptyString => false
      | String c1 r1 =>
          if in_range 194 223 c0 then cont c1 && utf8_valid r1
          else match r1 with
          | EmptyString => false
          | String c2 r2 =>
              if in_range 224 239 c0 then
                (if in_range 224 224 c0 then in_range 160 191 c1
                 else if in_range 237 237 c0 then in_range 128 159 c1
                 else cont c1)
                && cont c2 && utf8_valid r2
              else match r2 with
              | EmptyString => false
              | String c3 r3 =>
                  in_range 240 244 c0
                  && (if in_range 240 240 c0 then in_range 144 191 c1
                      else if in_range 244 244 c0 then in_range 128 143 c1
                      else cont c1)
                  && cont c2 && cont c3 && utf8_valid r3
              end
          end
      end
  end.

Definition bytes_decode (b : string) : option string :=
  if utf8_valid b then Some b else None.

(** [base64.urlsafe_b64encode]. *)
Definition b64_alphabet : string :=
  "ABCDEFGHIJKLMNOPQRSTUVWXYZabcdefghijklmnopqrstuvwxyz0123456789-_".

Definition b64_char (n : N) : ascii :=
  default "A"%char (String.get (N.to_nat n) b64_alphabet).

Fixpoint urlsafe_b64encode (b : string) : string :=
  match b with
  | EmptyString => EmptyString
  | String x EmptyString =>
      let x := N_of_ascii x in
      String (b64_char (x / 4)) (String (b64_char (x mod 4 * 16)) "==")
  | String x (String y EmptyString) =>
      let x := N_of_ascii x in
      let y := N_of_ascii y in
      String (b64_char (x / 4))
        (String (b64_char (x mod 4 * 16 + y / 16))
           (String (b64_char (y mod 16 * 4)) "="))
  | String x (String y (String z rest)) =>
      let x := N_of_ascii x in
      let y := N_of_ascii y in
      let z := N_of_ascii z in
      String (b64_char (x / 4))
        (String (b64_char (x mod 4 * 16 + y / 16))
           (String (b64_char (y mod 16 * 4 + z / 64))
              (String (b64_char (z mod 64)) (urlsafe_b64encode rest))))
  end%N.

(** The value of a base64 digit. [urlsafe_b64decode] first rewrites
    [-] and [_] to [+] and [/], so both spellings are digits. *)
Definition b64_value (c : ascii) : option N :=
  let n := N_of_ascii c in
  (if in_range 65 90 c then Some (n - 65)
   else if in_range 97 122 c then Some (n - 71)
   else if in_range 48 57 c then Some (n + 4)
   else if in_range 45 45 c || in_range 43 43 c then Some 62
   else if in_range 95 95 c || in_range 47 47 c then Some 63
   else None)%N.

(** [binascii.a2b_base64] in its default, non-strict mode, as
    [base64.urlsafe_b64decode] calls it: bytes that are not digits are
    skipped, a pad that completes the quad ends the data, and input
    that stops inside a quad is an error ([None]). *)
Fixpoint a2b_base64 (s : string) (quad_pos leftchar pads : N)
  : option string :=
  match s with
  | EmptyString => if (quad_pos =? 0)%N then Some EmptyString else None
  | String c s' =>
      if Ascii.eqb c "="%char then
        if (2 <=? quad_pos)%N then
          if (4 <=? quad_pos + (pads + 1))%N then Some EmptyString
          else a2b_base64 s' quad_pos leftchar (pads + 1)%N
        else a2b_base64 s' quad_pos leftchar pads
      else
        match b64_value c with
        | None => a2b_base64 s' quad_pos leftchar pads
        | Some v =>
            (if quad_pos =? 0 then a2b_base64 s' 1 v 0
             else if quad_pos =? 1 then
               String (ascii_of_N (leftchar * 4 + v / 16))
                 <$> a2b_base64 s' 2 (v mod 16) 0
             else if quad_pos =? 2 then
               String (ascii_of_N (leftchar * 16 + v / 4))
                 <$> a2b_base64 s' 3 (v mod 4) 0
             else
               String (ascii_of_N (leftchar * 64 + v))
                 <$> a2b_base64 s' 0 0 0)%N
        end
  end.

Definition urlsafe_b64decode (s : string) : option string :=
  a2b_base64 s 0 0 0.

(** ** JWT claim sets *)

(** The payload dictionary of a token, with the claims the service
    issues and reads; an absent key is [None]. Times are in seconds. *)
Module Claims.
Record t := mk {
    sub : option string;
    role : option string;
    session_id : option string;
    email : option string;
    family_id : option string;
    exp : option Z;
    iat : option Z;
    iss : option string;
    aud : option string;
    jti : option string;
    token_type : option string
  }.

  (** The [data] dictionaries handed to [create_access_token]. *)
Definition of_data (sub role session_id email : option string) : t :=
    mk sub role session_id email None None None None None None None.

  (** [to_encode.update({exp, iat, iss, aud, jti, token_type})]. *)
Definition update_security (c : t) (exp iat : Z)
      (iss aud jti token_type : string) : t :=
    mk (sub c) (role c) (session_id c) (email c) (family_id c)
       (Some exp) (Some iat) (Some iss) (Some aud) (Some jti)
       (Some token_type).
End Claims.

(** ** External primitives *)

Class Primitives := {
  (** [hashlib.sha256(b).digest()] *)
  sha256 : string -> string;
  (** [hmac.new(key, msg, hashlib.sha256).digest()] *)
  hmac_sha256 : string -> string -> string;
  (** [pwd_context.verify(secret, hash)]; [None] when passlib raises *)
  pwd_context_verify : string -> string -> option bool;
  (** [Fernet(key).encrypt(data)]; the IV and the time stamp that the
      library draws are the second argument *)
  fernet_encrypt : string -> string -> string -> string;
  (** [Fernet(key).decrypt(token)]; [None] is [InvalidToken] *)
  fernet_decrypt : string -> string -> option string;
  (** [jwt.encode(claims, key, algorithm)] *)
  jwt_encode : Claims.t -> string -> string;
  (** the signature check and payload parse of [jwt.decode]; [None]
      when the token is malformed or its signature does not verify *)
  jws_verify : string -> string -> option Claims.t;
  (** [jwt.get_unverified_claims(token)]; [None] when it raises *)
  jwt_get_unverified_claims : string -> option Claims.t
}.

(** ** Cryptographic core ([backend/core/security.py]) *)

Module SecurityConfig.
Definition ACCESS_TOKEN_EXPIRE_MINUTES : Z := 15.
Definition REFRESH_TOKEN_EXPIRE_DAYS : Z := 30.
Definition MAX_LOGIN_ATTEMPTS : Z := 5.
Definition ACCOUNT_LOCK_DURATION_MINUTES : Z := 30.
Definition SESSION_TIMEOUT_MINUTES : Z := 120.
Definition MAX_CONCURRENT_SESSIONS : Z := 3.
End SecurityConfig.

Definition minutes (n : Z) : Z := n * 60.
Definition days (n : Z) : Z := n * 86400.

Module CryptographicService.
Section WithPrimitives.
Context `{Primitives}.
  (** [self.secret_key] *)
Variable secret_key : string.

  (** The key of [_get_fernet]. *)
Definition _get_fernet : string :=
    urlsafe_b64encode (sha256 secret_key).

Definition verify_password (password hashed_password salt : string)
    : bool :=
    match pwd_context_verify (password +:+ salt) hashed_password with
    | Some is_valid => is_valid
    | None => false
    end.


Definition decrypt_sensitive_data (encrypted_data : string)
    : result string :=
    let fernet := _get_fernet in
    let failed := Raise (SecurityException "Failed to decrypt sensitive data") in
    match urlsafe_b64decode encrypted_data with
    | None => failed
    | Some decoded =>
        match fernet_decrypt fernet decoded with
        | None => failed
        | Some decrypted =>
            match bytes_decode decrypted with
            | None => failed
            | Some text => Return text
            end
        end
    end.



End WithPrimitives.
End CryptographicService.

Module JWTService.
Section WithPrimitives.
Context `{Primitives}.
Variable secret_key : string.

Definition issuer : string := "makko-intelligence-auth".
Definition audience : string := "tumataxi-app".

Definition create_access_token (data : Claims.t)
      (expires_delta : option Z) (now : Z) (jti : string) : string :=
    let expire :=
      match expires_delta with
      | Some d => if d =? 0
                  then now + minutes SecurityConfig.ACCESS_TOKEN_EXPIRE_MINUTES
                  else now + d
      | None => now + minutes SecurityConfig.ACCESS_TOKEN_EXPIRE_MINUTES
      end in
    let to_encode :=
      Claims.update_security data expire now issuer audience jti "access" in
    jwt_encode to_encode secret_key.

Record RefreshTokenData := {
    token : string;
    token_hash : string;
    family_id : string;
    expires_at : Z
  }.

  (** [fresh_family] and [jti] are the [generate_secure_token(16)]
      draws. *)
Definition create_refresh_token (user_id session_id : string)
      (family_id : option string) (now : Z) (fresh_family jti : string)
    : RefreshTokenData :=
    let family_id := default fresh_family family_id in
    let expire := now + days SecurityConfig.REFRESH_TOKEN_EXPIRE_DAYS in
    let token_data :=
      Claims.mk (Some user_id) None (Some session_id) None (Some family_id)
        (Some expire) (Some now) (Some issuer) (Some audience) (Some jti)
        (Some "refresh") in
    let token := jwt_encode token_data secret_key in
    {| token := token;
       token_hash := hexlify (sha256 token);
       family_id := family_id;
       expires_at := expire |}.

  (** [jwt.decode(token, key, algorithms, audience=..., issuer=...)]:
      after the signature, python-jose checks the registered claims it
      was asked for. An [exp] before the current time, an [aud] other
      than the expected audience, or an [iss] other than the expected
      issuer is a [JWTError]. *)
Definition jwt_decode (token : string) (now : Z) : result Claims.t :=
    match jws_verify token secret_key with
    | None => Raise (JWTError "Signature verification failed.")
    | Some claims =>
        if match Claims.exp claims with Some e => e <? now | None => false end
        then Raise (JWTError "Signature has expired.")
        else if match Claims.aud claims with
                | Some a => negb (String.eqb a audience)
                | None => false
                end
        then Raise (JWTError "Invalid audience")
        else if negb (bool_decide (Claims.iss claims = Some issuer))
        then Raise (JWTError "Invalid issuer")
        else Return claims
    end.

  (** The body of the [try] block of [verify_token]. *)
Definition verify_token_checks (token token_type : string) (now : Z)
    : result Claims.t :=
    match jwt_decode token now with
    | Raise e => Raise e
    | Return payload =>
        if negb (bool_decide (Claims.token_type payload = Some token_type))
        then Raise (SecurityException
                      ("Invalid token type. Expected " +:+ token_type))
        else
          let current_time := now in
          if default 0 (Claims.exp payload) <? current_time
          then Raise (SecurityException "Token has expired")
          else if current_time + 60 <? default 0 (Claims.iat payload)
          then Raise (SecurityException "Token issued in the future")
          else Return payload
    end.

  (** [verify_token]: [except JWTError] comes first, then
      [except Exception], which also catches the [SecurityException]s
      raised inside the [try]. *)
Definition verify_token (token token_type : string) (now : Z)
    : result Claims.t :=
    match verify_token_checks token token_type now with
    | Return payload => Return payload
    | Raise (JWTError _) => Raise (SecurityException "Invalid token")
    | Raise _ => Raise (SecurityException "Token verification failed")
    end.

Definition decode_token_unsafe (token : string) : option Claims.t :=
    jwt_get_unverified_claims token.
End WithPrimitives.
End JWTService.

(** ** Database models ([backend/database/models.py]) *)

(** Keys (UUIDs) and opaque tokens are strings. Columns that no
    modelled decision reads (names, phone, device and browser labels,
    JSON metadata) are left out of the records. *)

Module UserStatus.
Inductive t := ACTIVE | INACTIVE | SUSPENDED | PENDING_VERIFICATION | DELETED.
#[global] Instance eq_dec : EqDecision t.
Proof. solve_decision. Defined.
Definition value (s : t) : string :=
    match s with
    | ACTIVE => "active"
    | INACTIVE => "inactive"
    | SUSPENDED => "suspended"
    | PENDING_VERIFICATION => "pending_verification"
    | DELETED => "deleted"
    end.
End UserStatus.

Module SessionStatus.
Inductive t := ACTIVE | EXPIRED | REVOKED | SUSPICIOUS.
#[global] Instance eq_dec : EqDecision t.
Proof. solve_decision. Defined.
End SessionStatus.

Module User.
Record t := mk {
    id : string;
    email : string;
    hashed_password : string;
    password_salt : string;
    status : UserStatus.t;
    role : string;
    failed_login_attempts : Z;
    account_locked_until : option Z;
    last_login_at : option Z;
    last_login_ip : option string;
    deleted_at : option Z
  }.

Definition is_active (self : t) (now : Z) : bool :=
    bool_decide (status self = UserStatus.ACTIVE)
    && bool_decide (deleted_at self = None)
    && match account_locked_until self with
       | None => true
       | Some until => until <? now
       end.

Definition is_locked (self : t) (now : Z) : bool :=
    match account_locked_until self with
    | None => false
    | Some until => now <? until
    end.

Definition set_failed_login_attempts (n : Z) (u : t) : t :=
    mk (id u) (email u) (hashed_password u) (password_salt u) (status u)
       (role u) n (account_locked_until u) (last_login_at u)
       (last_login_ip u) (deleted_at u).

Definition set_account_locked_until (until : option Z) (u : t) : t :=
    mk (id u) (email u) (hashed_password u) (password_salt u) (status u)
       (role u) (failed_login_attempts u) until (last_login_at u)
       (last_login_ip u) (deleted_at u).

Definition set_last_login (at_ : Z) (ip : string) (u : t) : t :=
    mk (id u) (email u) (hashed_password u) (password_salt u) (status u)
       (role u) (failed_login_attempts u) (account_locked_until u)
       (Some at_) (Some ip) (deleted_at u).
End User.

Module UserSession.
Record t := mk {
  id : string;
  user_id : string;
  session_id : string;
  status : SessionStatus.t;
  user_agent : string;
  ip_address : string;
  country_code : option string;
  created_at : Z;
  last_activity_at : Z;
  expires_at : Z;
  ended_at : option Z;
  is_suspicious : bool;
  (** [None] only on an object that has not been flushed *)
  risk_score : option Z
}.

Definition is_active (self : t) (now : Z) : bool :=
  bool_decide (status self = SessionStatus.ACTIVE)
  && (now <? expires_at self)
  && bool_decide (ended_at self = None).

Definition is_expired (self : t) (now : Z) : bool :=
  expires_at self <=? now.

(** [s.status = SessionStatus.REVOKED; s.ended_at = now] *)
Definition revoke (now : Z) (s : t) : t :=
  mk (id s) (user_id s) (session_id s) SessionStatus.REVOKED
     (user_agent s) (ip_address s) (country_code s) (created_at s)
     (last_activity_at s) (expires_at s) (Some now) (is_suspicious s)
     (risk_score s).

Definition set_is_suspicious (b : bool) (s : t) : t :=
  mk (id s) (user_id s) (session_id s) (status s) (user_agent s)
     (ip_address s) (country_code s) (created_at s) (last_activity_at s)
     (expires_at s) (ended_at s) b (risk_score s).

Definition set_risk_score (r : Z) (s : t) : t :=
  mk (id s) (user_id s) (session_id s) (status s) (user_agent s)
     (ip_address s) (country_code s) (created_at s) (last_activity_at s)
     (expires_at s) (ended_at s) (is_suspicious s) (Some r).

Definition set_last_activity_at (now : Z) (s : t) : t :=
  mk (id s) (user_id s) (session_id s) (status s) (user_agent s)
     (ip_address s) (country_code s) (created_at s) now
     (expires_at s) (ended_at s) (is_suspicious s) (risk_score s).

(** The row that the flush inserts: [risk_score] gets its column
    default [0] if it was never assigned. *)
Definition flush (s : t) : t :=
  set_risk_score (default 0 (risk_score s)) s.
End UserSession.

Module RefreshToken.
Record t := mk {
    user_id : string;
    session_id : string;
    token_hash : string;
    token_family : string;
    is_revoked : bool;
    is_used : bool;
    created_at : Z;
    expires_at : Z;
    used_at : option Z;
    revoked_at : option Z;
    ip_address : string;
    user_agent : option string
  }.

Definition is_valid (self : t) (now : Z) : bool :=
    negb (is_revoked self) && negb (is_used self)
    && (now <? expires_at self).

  (** [r.is_used = True; r.used_at = now] *)
Definition mark_used (now : Z) (r : t) : t :=
    mk (user_id r) (session_id r) (token_hash r) (token_family r)
       (is_revoked r) true (created_at r) (expires_at r) (Some now)
       (revoked_at r) (ip_address r) (user_agent r).

  (** [update({"is_revoked": True, "revoked_at": now})] on one row *)
Definition revoke (now : Z) (r : t) : t :=
    mk (user_id r) (session_id r) (token_hash r) (token_family r)
       true (is_used r) (created_at r) (expires_at r) (used_at r)
       (Some now) (ip_address r) (user_agent r).
End RefreshToken.

Module SecurityEvent.
Record t := mk {
    user_id : option string;
    event_type : string;
    severity : string;
    description : string;
    ip_address : string;
    user_agent : option string;
    confidence_score : Z
  }.
End SecurityEvent.

Module AuditLog.
Record t := mk {
    user_id : option string;
    session_id : option string;
    action : string;
    ip_address : string;
    user_agent : option string;
    success : bool;
    error_message : option string;
    risk_level : string
  }.
End AuditLog.

(** How a [RefreshToken] row may change: flags and stamps are never
    cleared, and a flag that has been set carries its stamp. *)
Definition advance (r r' : RefreshToken.t) : Prop :=
  (RefreshToken.is_used r = true -> RefreshToken.is_used r' = true)
  /\ (RefreshToken.is_revoked r = true -> RefreshToken.is_revoked r' = true)
  /\ (is_Some (RefreshToken.used_at r) -> is_Some (RefreshToken.used_at r'))
  /\ (is_Some (RefreshToken.revoked_at r)
      -> is_Some (RefreshToken.revoked_at r'))
  /\ (RefreshToken.is_used r' = true ->
      RefreshToken.is_used r = true \/ is_Some (RefreshToken.used_at r'))
  /\ (RefreshToken.is_revoked r' = true ->
      RefreshToken.is_revoked r = true
      \/ is_Some (RefreshToken.revoked_at r')).

(** Every row of [l] is still there, at its position, and has only
    advanced. *)
Definition rows_advance (l l' : list RefreshToken.t) : Prop :=
  forall i r, l !! i = Some r -> exists r', l' !! i = Some r' /\ advance r r'.

(** The tables behind the SQLAlchemy session. A row is identified by
    its position; an ORM object obtained from a query is the pair of
    that position and the row, and assigning to its attributes writes
    the row in place. *)
Record Database := mkDatabase {
  users : list User.t;
  user_sessions : list UserSession.t;
  refresh_tokens : list RefreshToken.t;
  security_events : list SecurityEvent.t;
  audit_logs : list AuditLog.t
}.

Definition set_users (f : list User.t -> list User.t) (db : Database) :=
  mkDatabase (f (users db)) (user_sessions db) (refresh_tokens db)
    (security_events db) (audit_logs db).
Definition set_user_sessions
    (f : list UserSession.t -> list UserSession.t) (db : Database) :=
  mkDatabase (users db) (f (user_sessions db)) (refresh_tokens db)
    (security_events db) (audit_logs db).
Definition set_refresh_tokens
    (f : list RefreshToken.t -> list RefreshToken.t) (db : Database) :=
  mkDatabase (users db) (user_sessions db) (f (refresh_tokens db))
    (security_events db) (audit_logs db).
Definition set_security_events
    (f : list SecurityEvent.t -> list SecurityEvent.t) (db : Database) :=
  mkDatabase (users db) (user_sessions db) (refresh_tokens db)
    (f (security_events db)) (audit_logs db).
Definition set_audit_logs
    (f : list AuditLog.t -> list AuditLog.t) (db : Database) :=
  mkDatabase (users db) (user_sessions db) (refresh_tokens db)
    (security_events db) (f (audit_logs db)).

(** ** Handlers: state and exceptions *)

(** The SQLAlchemy session of one request: the committed database and
    the working copy that the handler reads and mutates. [commit] is
    [db.commit()]. *)
Record Txn := mkTxn {
  committed : Database;
  working : Database
}.

(** A handler runs in a session and either returns or raises. *)
Definition Handler (A : Type) : Type := Txn -> result A * Txn.

Definition ret {A} (a : A) : Handler A := fun t => (Return a, t).
Definition raise {A} (e : exn) : Handler A := fun t => (Raise e, t).
Definition lift {A} (r : result A) : Handler A := fun t => (r, t).
Definition query {A} (f : Database -> A) : Handler A :=
  fun t => (Return (f (working t)), t).
Definition execute (f : Database -> Database) : Handler unit :=
  fun t => (Return tt, mkTxn (committed t) (f (working t))).
Definition commit : Handler unit :=
  fun t => (Return tt, mkTxn (working t) (working t)).
Definition bind {A B} (m : Handler A) (k : A -> Handler B) : Handler B :=
  fun t =>
    match m t with
    | (Return a, t') => k a t'
    | (Raise e, t') => (Raise e, t')
    end.

(** One request: [get_db] opens a session on the database and closes
    it afterwards, which drops what was not committed. *)
Definition run {A} (m : Handler A) (db : Database) : result A * Database :=
  let '(r, t) := m (mkTxn db db) in (r, committed t).

Notation "'let*' x ':=' m 'in' k" := (bind m (fun x => k))
  (at level 10, x name, m at level 100, k at level 200, only parsing).
Notation "m ';;' k" := (bind m (fun _ => k))
  (at level 100, k at level 200, right associativity, only parsing).

(** [except HTTPException: raise] followed by
    [except Exception: raise HTTPException(500, detail)]. *)
Definition reraise_http {A} (detail : string) (m : Handler A) : Handler A :=
  fun t =>
    match m t with
    | (Raise (HTTPException c d), t') => (Raise (HTTPException c d), t')
    | (Raise _, t') => (Raise (HTTPException 500 detail), t')
    | (Return a, t') => (Return a, t')
    end.

(** [except Exception: raise HTTPException(500, detail)] alone. *)
Definition reraise_any {A} (detail : string) (m : Handler A) : Handler A :=
  fun t =>
    match m t with
    | (Raise _, t') => (Raise (HTTPException 500 detail), t')
    | (Return a, t') => (Return a, t')
    end.

(** Evaluating a global name of a module: [NameError] unless the module
    binds it (no builtin is called [hashlib]). *)
Definition resolve (globals : list string) (name : string) : Handler unit :=
  if bool_decide (name ∈ globals) then ret tt else raise (NameError name).

(** [min(l, key=...)]: the first element with the least key; [None]
    on the empty list ([ValueError]). *)
Definition py_min {A} (key : A -> Z) (l : list A) : option A :=
  match l with
  | [] => None
  | x :: l' =>
      Some (fold_left (fun best y => if key y <? key best then y else best)
              l' x)
  end.

(** ** Authentication API ([backend/api/auth.py]) *)

(** What the handlers read from the HTTP request:
    [get_client_ip(request)], the [user-agent] and [authorization]
    headers, and the country that [get_geo_location] reports. *)
Record Request := {
  client_ip : string;
  user_agent_header : option string;
  authorization : option string;
  geo_country_code : option string
}.

(** The random draws of one call: the primary key of a new session
    row and the [generate_secure_token] results. *)
Record Entropy := {
  new_session_pk : string;
  new_session_id : string;
  access_jti : string;
  fresh_family : string;
  refresh_jti : string
}.

Record LoginRequest := {
  login_email : string;
  login_password : string;
  remember_me : bool
}.

Record TokenResponse := {
  access_token : string;
  refresh_token : string;
  token_type : string;
  expires_in : Z;
  user : User.t
}.

(** The names bound at module level in [auth.py]: its imports, then
    its own assignments, classes and functions. *)
Definition auth_globals : list string :=
  [ "datetime"; "timedelta"; "timezone";
    "Optional"; "Dict"; "Any"; "List";
    "APIRouter"; "Depends"; "HTTPException"; "status"; "Request";
    "Response"; "BackgroundTasks";
    "HTTPBearer"; "HTTPAuthorizationCredentials";
    "Session"; "IntegrityError";
    "BaseModel"; "EmailStr"; "Field"; "validator";
    "structlog"; "ipaddress"; "parse_user_agent";
    "User"; "UserSession"; "RefreshToken"; "AuditLog"; "SecurityEvent";
    "UserStatus"; "UserRole"; "SessionStatus"; "AuditAction";
    "crypto_service"; "jwt_service"; "two_factor_service";
    "PasswordValidator"; "SecurityConfig"; "SecurityException";
    "get_db"; "rate_limiter"; "security_monitor";
    "get_client_ip"; "get_device_fingerprint"; "get_geo_location";
    "logger"; "router"; "security";
    "RegisterRequest"; "LoginRequest"; "TokenResponse";
    "RefreshTokenRequest"; "ChangePasswordRequest";
    "ResetPasswordRequest"; "ConfirmResetPasswordRequest";
    "Enable2FARequest"; "Verify2FARequest"; "UserProfileResponse";
    "get_current_user"; "create_user_session";
    "detect_suspicious_session"; "log_audit_event";
    "register_user"; "login_user"; "refresh_access_token";
    "logout_user"; "get_current_user_profile";
    "send_verification_email" ].

Definition log_audit_event (user_id : option string) (action : string)
    (request : Request) (success : bool) (error_message : option string)
    (session_id : option string) : Handler unit :=
  execute (set_audit_logs (fun l =>
    l ++ [AuditLog.mk user_id session_id action (client_ip request)
            (user_agent_header request) success error_message
            (if success then "low" else "medium")]));;
  commit.

(** The filter of the active-session query:
    [user_id == user.id, status == ACTIVE, expires_at > now]. *)
Definition active_filter (user : User.t) (now : Z) (s : UserSession.t)
  : bool :=
  bool_decide (UserSession.user_id s = User.id user)
  && bool_decide (UserSession.status s = SessionStatus.ACTIVE)
  && (now <? UserSession.expires_at s).

(** The rows of [db.query(UserSession).filter(...).all()], each with
    its position. *)
Definition active_sessions_query (user : User.t) (now : Z) (db : Database)
  : list (nat * UserSession.t) :=
  List.filter (fun p => active_filter user now (snd p))
    (imap pair (user_sessions db)).

(** [[s.country_code for s in active_sessions if s.country_code]] *)
Definition known_countries (l : list (nat * UserSession.t)) : list string :=
  omap (fun '(_, s) =>
          if truthy (UserSession.country_code s)
          then UserSession.country_code s else None) l.

(** What [max(None, 50)] raises. *)
Definition max_type_error : exn :=
  TypeError "'>' not supported between instances of 'int' and 'NoneType'".

(** [session.country_code and session.country_code not in countries
    and countries] *)
Definition new_country (session : UserSession.t) (countries : list string)
  : bool :=
  truthy (UserSession.country_code session)
  && negb (bool_decide
             (default "" (UserSession.country_code session) ∈ countries))
  && negb (bool_decide (countries = [])).

Definition detect_suspicious_session (user : User.t)
    (session : UserSession.t) (now : Z) : Handler UserSession.t :=
  let* active_sessions := query (active_sessions_query user now) in
  let* session :=
    match active_sessions with
    | [] => ret session
    | _ :: _ =>
        let countries := known_countries active_sessions in
        if new_country session countries
        then
          let session :=
            UserSession.set_risk_score 75
              (UserSession.set_is_suspicious true session) in
          execute (set_security_events (fun l =>
            l ++ [SecurityEvent.mk (Some (User.id user))
                    "suspicious_login_location" "medium"
                    ("Login from new country: "
                       +:+ default "" (UserSession.country_code session))
                    (UserSession.ip_address session)
                    (Some (UserSession.user_agent session)) 75]));;
          ret session
        else ret session
    end in
  if SecurityConfig.MAX_CONCURRENT_SESSIONS
       <=? Z.of_nat (length active_sessions)
  then
    match UserSession.risk_score session with
    | None => raise max_type_error
    | Some risk_score =>
        let session :=
          UserSession.set_risk_score (Z.max risk_score 50) session in
        match py_min (fun p => UserSession.created_at (snd p))
                active_sessions with
        | None => raise (ValueError "min() arg is an empty sequence")
        | Some (row, oldest_session) =>
            execute (set_user_sessions (fun l =>
              <[row := UserSession.revoke now oldest_session]> l));;
            ret session
        end
    end
  else ret session.

(** The [UserSession(...)] that [create_user_session] constructs; it
    is not given a [risk_score]. *)
Definition new_session (user : User.t) (request : Request)
    (remember_me : bool) (now : Z) (entropy : Entropy) : UserSession.t :=
  let expires_at :=
    if remember_me then now + days 30
    else now + minutes SecurityConfig.SESSION_TIMEOUT_MINUTES in
  UserSession.mk (new_session_pk entropy) (User.id user)
    (new_session_id entropy) SessionStatus.ACTIVE
    (default "" (user_agent_header request)) (client_ip request)
    (geo_country_code request) now now expires_at None false None.

Definition create_user_session (user : User.t) (request : Request)
    (remember_me : bool) (now : Z) (entropy : Entropy)
  : Handler UserSession.t :=
  let session := new_session user request remember_me now entropy in
  let* session := detect_suspicious_session user session now in
  execute (set_user_sessions (fun l => l ++ [UserSession.flush session]));;
  commit;;
  ret (UserSession.flush session).

(** One login attempt: the request with its own clock reading and
    random draws. *)
Abbreviation LoginAttempt := (LoginRequest * Request * Z * Entropy)%type.

Section Endpoints.
Context `{Primitives}.
(** The key that [initialize_security_services] gave to
    [crypto_service] and [jwt_service]. *)
Variable secret_key : string.

Definition login_user (request : LoginRequest) (http_request : Request)
    (now : Z) (entropy : Entropy) : Handler TokenResponse :=
  reraise_http "Authentication service temporarily unavailable" (
    let* found := query (fun db =>
      list_find (fun u => User.email u = login_email request) (users db)) in
    match found with
    | None =>
        log_audit_event None "failed_login" http_request false
          (Some "User not found") None;;
        raise (HTTPException 401 "Invalid credentials")
    | Some (row, user) =>
        if User.is_locked user now then
          log_audit_event (Some (User.id user)) "failed_login" http_request
            false (Some "Account locked") None;;
          raise (HTTPException 423
                   ("Account is locked until "
                      +:+ py_str (default 0 (User.account_locked_until user))))
        else if negb (CryptographicService.verify_password
                        (login_password request)
                        (User.hashed_password user)
                        (User.password_salt user))
        then
          let user :=
            User.set_failed_login_attempts
              (User.failed_login_attempts user + 1) user in
          let* user :=
            if SecurityConfig.MAX_LOGIN_ATTEMPTS
                 <=? User.failed_login_attempts user
            then
              let user :=
                User.set_account_locked_until
                  (Some (now + minutes
                           SecurityConfig.ACCOUNT_LOCK_DURATION_MINUTES))
                  user in
              execute (set_security_events (fun l =>
                l ++ [SecurityEvent.mk (Some (User.id user))
                        "account_locked" "high"
                        "Account locked due to multiple failed login attempts"
                        (client_ip http_request)
                        (user_agent_header http_request) 90]));;
              ret user
            else ret user in
          execute (set_users (fun l => <[row := user]> l));;
          commit;;
          log_audit_event (Some (User.id user)) "failed_login" http_request
            false (Some "Invalid password") None;;
          raise (HTTPException 401 "Invalid credentials")
        else if negb (User.is_active user now) then
          log_audit_event (Some (User.id user)) "failed_login" http_request
            false
            (Some ("Account status: " +:+ UserStatus.value (User.status user)))
            None;;
          raise (HTTPException 403
                   ("Account is " +:+ UserStatus.value (User.status user)))
        else
          let user :=
            User.set_last_login now (client_ip http_request)
              (User.set_account_locked_until None
                 (User.set_failed_login_attempts 0 user)) in
          execute (set_users (fun l => <[row := user]> l));;
          let* session :=
            create_user_session user http_request (remember_me request)
              now entropy in
          let token_expires :=
            if remember_me request then Some (days 1) else None in
          let access_token :=
            JWTService.create_access_token secret_key
              (Claims.of_data (Some (User.id user)) (Some (User.role user))
                 (Some (UserSession.session_id session))
                 (Some (User.email user)))
              token_expires now (access_jti entropy) in
          let refresh_token_data :=
            JWTService.create_refresh_token secret_key (User.id user)
              (UserSession.session_id session) None now
              (fresh_family entropy) (refresh_jti entropy) in
          execute (set_refresh_tokens (fun l =>
            l ++ [RefreshToken.mk (User.id user) (UserSession.id session)
                    (JWTService.token_hash refresh_token_data)
                    (JWTService.family_id refresh_token_data)
                    false false now
                    (JWTService.expires_at refresh_token_data)
                    None None (client_ip http_request)
                    (user_agent_header http_request)]));;
          commit;;
          log_audit_event (Some (User.id user)) "login" http_request true
            None (Some (UserSession.session_id session));;
          ret {| access_token := access_token;
                 refresh_token := JWTService.token refresh_token_data;
                 token_type := "bearer";
                 expires_in :=
                   SecurityConfig.ACCESS_TOKEN_EXPIRE_MINUTES * 60;
                 user := user |}
    end).

(** [db.query(RefreshToken).filter(token_family == family)
      .update({"is_revoked": True, "revoked_at": now})] *)
Definition revoke_family (family : string) (now : Z)
    (l : list RefreshToken.t) : list RefreshToken.t :=
  (fun r => if bool_decide (RefreshToken.token_family r = family)
            then RefreshToken.revoke now r else r) <$> l.

(** The same bulk update filtered on [session_id], as [logout_user]
    issues it. *)
Definition revoke_session_tokens (session_pk : string) (now : Z)
    (l : list RefreshToken.t) : list RefreshToken.t :=
  (fun r => if bool_decide (RefreshToken.session_id r = session_pk)
            then RefreshToken.revoke now r else r) <$> l.

(** The row that [refresh_access_token] fetches for a presented token
    with the given payload: the first one with the token's hash and the
    payload's subject. *)
Definition presented_row (token : string) (payload : Claims.t)
    (db : Database) : option (nat * RefreshToken.t) :=
  list_find
    (fun r => RefreshToken.token_hash r = hexlify (sha256 token)
              /\ RefreshToken.user_id r = default "" (Claims.sub payload))
    (refresh_tokens db).

(** The [try] block of [refresh_access_token], run in a module whose
    global names are [globals]. *)
Definition refresh_access_token_try (globals : list string)
    (request_refresh_token : string) (http_request : Request)
    (now : Z) (entropy : Entropy) : Handler TokenResponse :=
    let* payload :=
      lift (JWTService.verify_token secret_key request_refresh_token
              "refresh" now) in
    let user_id := Claims.sub payload in
    let session_id := Claims.session_id payload in
    let family_id := Claims.family_id payload in
    if negb (truthy user_id && truthy session_id && truthy family_id) then
      raise (HTTPException 401 "Invalid refresh token payload")
    else
      let user_id := default "" user_id in
      let session_id := default "" session_id in
      let family_id := default "" family_id in
      resolve globals "hashlib";;
      let token_hash := hexlify (sha256 request_refresh_token) in
      let* refresh_token_record := query (fun db =>
        list_find (fun r => RefreshToken.token_hash r = token_hash
                            /\ RefreshToken.user_id r = user_id)
          (refresh_tokens db)) in
      match refresh_token_record with
      | None =>
          raise (HTTPException 401 "Invalid or expired refresh token")
      | Some (row, record) =>
          if negb (RefreshToken.is_valid record now) then
            execute (set_refresh_tokens
                       (revoke_family (RefreshToken.token_family record) now));;
            execute (set_security_events (fun l =>
              l ++ [SecurityEvent.mk (Some user_id)
                      "token_reuse_detected" "critical"
                      "Refresh token reuse detected - token family revoked"
                      (client_ip http_request) None 95]));;
            commit;;
            raise (HTTPException 401 "Invalid or expired refresh token")
          else
            let* user := query (fun db =>
              list_find (fun u => User.id u = user_id) (users db)) in
            let* session := query (fun db =>
              list_find (fun s => UserSession.id s = session_id)
                (user_sessions db)) in
            match user, session with
            | Some (_, user), Some (session_row, session) =>
                if negb (User.is_active user now)
                   || negb (UserSession.is_active session now)
                then raise (HTTPException 401 "Invalid session or user")
                else
                  let access_token :=
                    JWTService.create_access_token secret_key
                      (Claims.of_data (Some (User.id user))
                         (Some (User.role user))
                         (Some (UserSession.session_id session))
                         (Some (User.email user)))
                      None now (access_jti entropy) in
                  let new_refresh_token_data :=
                    JWTService.create_refresh_token secret_key
                      (User.id user) (UserSession.session_id session)
                      (Some family_id) now (fresh_family entropy)
                      (refresh_jti entropy) in
                  execute (fun db =>
                    set_user_sessions (fun l =>
                      <[session_row :=
                          UserSession.set_last_activity_at now session]> l)
                    (set_refresh_tokens (fun l =>
                      <[row := RefreshToken.mark_used now record]> l
                      ++ [RefreshToken.mk (User.id user)
                            (UserSession.id session)
                            (JWTService.token_hash new_refresh_token_data)
                            family_id false false now
                            (JWTService.expires_at new_refresh_token_data)
                            None None (client_ip http_request)
                            (user_agent_header http_request)]) db));;
                  commit;;
                  ret {| access_token := access_token;
                         refresh_token :=
                           JWTService.token new_refresh_token_data;
                         token_type := "bearer";
                         expires_in :=
                           SecurityConfig.ACCESS_TOKEN_EXPIRE_MINUTES * 60;
                         user := user |}
            | _, _ => raise (HTTPException 401 "Invalid session or user")
            end
      end.

(** [refresh_access_token] with its two [except] clauses. The deployed
    handler is [refresh_access_token auth_globals]. *)
Definition refresh_access_token (globals : list string)
    (request_refresh_token : string) (http_request : Request)
    (now : Z) (entropy : Entropy) : Handler TokenResponse :=
  reraise_http "Token refresh service temporarily unavailable"
    (refresh_access_token_try globals request_refresh_token http_request
       now entropy).

(** [logout_user]; [current_user] is what the [get_current_user]
    dependency resolved. The local [session_id] is bound only inside
    the [if auth_header.startswith("Bearer ")] block. *)
Definition logout_user (http_request : Request) (current_user : User.t)
    (now : Z) : Handler string :=
  reraise_any "Logout service temporarily unavailable" (
    let auth_header := default "" (authorization http_request) in
    let* session_id :=
      if String.prefix "Bearer " auth_header then
        let token :=
          String.substring 7 (String.length auth_header - 7) auth_header in
        let payload := JWTService.decode_token_unsafe token in
        let session_id := payload ≫= Claims.session_id in
        (if truthy session_id then
           let* session := query (fun db =>
             list_find (fun s => UserSession.session_id s
                                   = default "" session_id
                                 /\ UserSession.user_id s
                                   = User.id current_user)
               (user_sessions db)) in
           match session with
           | Some (session_row, session) =>
               execute (fun db =>
                 set_refresh_tokens
                   (revoke_session_tokens (UserSession.id session) now)
                   (set_user_sessions (fun l =>
                      <[session_row := UserSession.revoke now session]> l)
                      db))
           | None => ret tt
           end
         else ret tt);;
        ret (Some session_id)
      else ret None in
    commit;;
    match session_id with
    | None => raise (UnboundLocalError "session_id")
    | Some session_id =>
        log_audit_event (Some (User.id current_user)) "logout" http_request
          true None session_id;;
        ret "Logged out successfully"
    end).





(** One operation of the engine on the database: any call of a
    handler that touches [RefreshToken] rows, in any module
    namespace. *)
Inductive step : Database -> Database -> Prop :=
| step_login request http_request now entropy db :
    step db (snd (run (login_user request http_request now entropy) db))
| step_refresh globals token http_request now entropy db :
    step db (snd (run (refresh_access_token globals token http_request now
                         entropy) db))
| step_logout http_request current_user now db :
    step db (snd (run (logout_user http_request current_user now) db)).

End Endpoints.

(** ** A reference instance of the primitives *)

(** An executable stand-in for the external libraries, used to run the
    model on concrete data. It has the functional behaviour of the
    libraries (what is decrypted is what was encrypted, a token verifies
    under the key it was issued for) and none of their strength. *)
Module Reference.

Fixpoint strip_prefix (p s : string) : option string :=
  match p, s with
  | EmptyString, _ => Some s
  | String a p', String b s' =>
      if Ascii.eqb a b then strip_prefix p' s' else None
  | String _ _, EmptyString => None
  end.

Definition fernet_tag (key : string) : string := "fernet[" +:+ key +:+ "]".

(** A refresh token of user [u1] in family [fam1], good until 3000000. *)
Definition refresh_claims : Claims.t :=
  Claims.mk (Some "u1") None (Some "s1") None (Some "fam1")
    (Some 3000000) (Some 1000) (Some JWTService.issuer)
    (Some JWTService.audience) (Some "r1") (Some "refresh").

(** A second refresh token of the same family that no row records. *)
Definition unrecorded_claims : Claims.t :=
  Claims.mk (Some "u1") None (Some "s1") None (Some "fam1")
    (Some 3000000) (Some 1000) (Some JWTService.issuer)
    (Some JWTService.audience) (Some "r2") (Some "refresh").

(** An access token signed with the service key for another audience. *)
Definition foreign_audience_claims : Claims.t :=
  Claims.mk (Some "u1") (Some "admin") (Some "s1") None None
    (Some 5000) (Some 1000) (Some JWTService.issuer)
    (Some "other-app") (Some "a9") (Some "access").

(** The refresh token that [login_user] issues at time 2000 with the
    draws [entropy "5"]: its [session_id] claim is the opaque session
    id, not the primary key of the session row. *)
Definition login_claims : Claims.t :=
  Claims.mk (Some "u1") None (Some "sid-s5") None (Some "fam5")
    (Some (2000 + 30 * 86400)) (Some 2000) (Some JWTService.issuer)
    (Some JWTService.audience) (Some "r5") (Some "refresh").

Definition issued : list (string * Claims.t) :=
  [ ("jwt.r1", refresh_claims);
    ("jwt.r2", unrecorded_claims);
    ("jwt.a9", foreign_audience_claims);
    ("jwt.r5", login_claims) ].

Definition lookup_issued (token : string) : option Claims.t :=
  snd <$> List.find (fun e => String.eqb (fst e) token) issued.

Definition service_key : string := "secret".

Definition primitives : Primitives := {|
  sha256 := fun b => "sha256(" +:+ b +:+ ")";
  hmac_sha256 := fun key msg => "hmac(" +:+ key +:+ "," +:+ msg +:+ ")";
  pwd_context_verify := fun secret hash =>
    Some (String.eqb ("bcrypt(" +:+ secret +:+ ")") hash);
  fernet_encrypt := fun key nonce data => fernet_tag key +:+ data;
  fernet_decrypt := fun key token => strip_prefix (fernet_tag key) token;
  jwt_encode := fun claims key => "jwt." +:+ default "" (Claims.jti claims);
  jws_verify := fun token key =>
    if String.eqb key service_key then lookup_issued token else None;
  jwt_get_unverified_claims := lookup_issued
|}.

Definition alice : User.t :=
  User.mk "u1" "alice@example.com" "bcrypt(correct-horse!salt)" "salt"
    UserStatus.ACTIVE "passenger" 0 None None None None.

Definition session (pk : string) (created expires : Z) : UserSession.t :=
  UserSession.mk pk "u1" ("sid-" +:+ pk) SessionStatus.ACTIVE "agent"
    "10.0.0.1" (Some "US") created created expires None false (Some 0).

Definition token_row (token family : string) : RefreshToken.t :=
  RefreshToken.mk "u1" "s1" (hexlify ("sha256(" +:+ token +:+ ")")) family
    false false 1000 3000000 None None "10.0.0.1" None.

Definition db0 : Database :=
  mkDatabase [alice] [session "s1" 1000 9000]
    [token_row "jwt.r1" "fam1"] [] [].



(** Three live sessions of the account, created at 300, 100 and 200,
    next to an ended one. *)
Definition db_three_sessions : Database :=
  mkDatabase [alice]
    [session "s1" 300 9000;
     UserSession.revoke 50 (session "s0" 10 9000);
     session "s2" 100 9000;
     session "s3" 200 9000]
    [] [] [].

(** The module namespace of [auth.py] with [hashlib] imported. *)
Definition bound_globals : list string := "hashlib" :: auth_globals.

Definition right_login : LoginRequest :=
  {| login_email := "alice@example.com";
     login_password := "correct-horse!";
     remember_me := false |}.


Definition request0 : Request :=
  {| client_ip := "10.0.0.1";
     user_agent_header := Some "agent";
     authorization := None;
     geo_country_code := Some "US" |}.

(** The same client seen from another country. *)
Definition request_fr : Request :=
  {| client_ip := "10.0.0.1";
     user_agent_header := Some "agent";
     authorization := None;
     geo_country_code := Some "FR" |}.

Definition entropy (n : string) : Entropy :=
  {| new_session_pk := "s" +:+ n;
     new_session_id := "sid-s" +:+ n;
     access_jti := "a" +:+ n;
     fresh_family := "fam" +:+ n;
     refresh_jti := "r" +:+ n |}.

(** One call of the refresh endpoint, in a module with the given
    globals, and one call of the login endpoint, on the reference
    primitives and [request0]; [n] names the random draws. *)
Definition refresh (globals : list string) (token : string) (now : Z)
    (n : string) (db : Database) : result TokenResponse * Database :=
  run (refresh_access_token (H := primitives) service_key globals token
         request0 now (entropy n)) db.

Definition login (request : LoginRequest) (now : Z) (n : string)
    (db : Database) : result TokenResponse * Database :=
  run (login_user (H := primitives) service_key request request0 now
         (entropy n)) db.

End Reference.

(** * Properties *)

(** Unfolds the handler combinators. *)
Ltac run_handler :=
  unfold run, reraise_http, reraise_any, bind, lift, query, execute, commit,
    raise, ret, resolve in *;
  cbn [working committed] in *.

(** ** [str.split] *)
Lemma split_nonempty sep s : split sep s <> [].
Proof.
  destruct s as [|c s]; simpl; [discriminate|].
  destruct (Ascii.eqb c sep); [discriminate|].
  destruct (split sep s); discriminate.
Qed.

Lemma split_no_sep sep s : contains sep s = false -> split sep s = [s].
Proof.
  induction s as [|c s IH]; simpl; [reflexivity|].
  destruct (Ascii.eqb c sep); simpl; [discriminate|].
  intros Hs. rewrite (IH Hs). reflexivity.
Qed.

Lemma split_app sep a b :
  contains sep a = false ->
  split sep (a +:+ String sep b) = a :: split sep b.
Proof.
  induction a as [|c a IH]; simpl.
  - intros _. rewrite Ascii.eqb_refl. reflexivity.
  - destruct (Ascii.eqb c sep); simpl; [discriminate|].
    intros Ha. rewrite (IH Ha). reflexivity.
Qed.

Lemma split_singleton sep s x : split sep s = [x] -> x = s /\ contains sep s = false.
Proof.
  revert x. induction s as [|c s IH]; simpl; intros x.
  - intros [= <-]. split; reflexivity.
  - destruct (Ascii.eqb c sep) eqn:E.
    + intros [= _ Hs]. destruct (split_nonempty _ _ Hs).
    + destruct (split sep s) as [|p ps] eqn:Hs.
      * destruct (split_nonempty _ _ Hs).
      * intros [= <- ->]. destruct (IH p eq_refl) as [-> Hc].
        split; [reflexivity|]. simpl. exact Hc.
Qed.

Lemma split_pair sep s a b :
  split sep s = [a; b] <->
  s = a +:+ String sep b /\ contains sep a = false /\ contains sep b = false.
Proof.
  split.
  - revert a. induction s as [|c s IH]; simpl; intros a.
    + discriminate.
    + destruct (Ascii.eqb_spec c sep) as [->|Hne].
      * intros [= <- Hs]. apply split_singleton in Hs as [-> Hb].
        repeat split; auto.
      * destruct (split sep s) as [|p ps] eqn:Hs; [discriminate|].
        intros [= <- ->]. destruct (IH p eq_refl) as (-> & Ha & Hb).
        repeat split; auto. simpl.
        destruct (Ascii.eqb_spec c sep); [contradiction|]. exact Ha.
  - intros (-> & Ha & Hb). rewrite split_app by exact Ha.
    rewrite (split_no_sep _ _ Hb). reflexivity.
Qed.

Section RBAC.
Import RBACMiddleware.

Lemma has_permission_spec (perms : gmap string (list string)) role p :
  _has_permission perms role p = true <->
  "*" ∈ default [] (perms !! role)
  \/ p ∈ default [] (perms !! role)
  \/ exists resource action,
       resource_action p resource action
       /\ (resource +:+ ":*") ∈ default [] (perms !! role).
Proof.
  unfold _has_permission.
  set (held := default [] (perms !! role)).
  destruct (bool_decide_reflect ("*" ∈ held)) as [Hs|Hs]; [tauto|].
  destruct (bool_decide_reflect (p ∈ held)) as [Hp|Hp]; [tauto|].
  destruct (split colon p) as [|a [|b [|c l]]] eqn:Hsplit.
  - destruct (split_nonempty _ _ Hsplit).
  - split; [discriminate|]. intros [?|[?|(r & act & Hra & _)]]; try contradiction.
    apply split_pair in Hra. congruence.
  - apply split_pair in Hsplit.
    destruct (bool_decide_reflect ((a +:+ ":*") ∈ held)) as [Hw|Hw].
    + split; [|reflexivity]. intros _. right. right. exists a, b. split; assumption.
    + split; [discriminate|].
      intros [?|[?|(r & act & Hra & Hin)]]; try contradiction.
      destruct Hsplit as (Hp1 & Ha & Hb). destruct Hra as (Hp2 & Hr & Hact).
      assert (E : [a; b] = [r; act]).
      { rewrite <- (proj2 (split_pair colon p a b)) by (repeat split; assumption).
        rewrite <- (proj2 (split_pair colon p r act)) by (repeat split; assumption).
        reflexivity. }
      injection E as -> ->. contradiction.
  - split; [discriminate|]. intros [?|[?|(r & act & Hra & _)]]; try contradiction.
    apply split_pair in Hra. congruence.
Qed.

(** Claim C7 (RBAC authorization semantics). The permission check of
    [dispatch] lets a role through iff no permission is required
    ([None] or the empty string), or the role's list holds ["*"], or it
    holds the required string itself, or the required string is
    [resource:action] with a single colon and the list holds
    [resource:*]. A role absent from the mapping is denied whatever is
    required. A role holding [users:*] passes for [users:read],
    [users:write] and [users:delete]; a role holding only that does not
    pass for [trips:read]. *)
Theorem rbac_authorization_semantics
    (perms : gmap string (list string)) (role : string)
    (required : option string) :
  (permission_granted perms role required = true <->
     required = None \/ required = Some ""
     \/ exists p, required = Some p
        /\ ("*" ∈ default [] (perms !! role)
            \/ p ∈ default [] (perms !! role)
            \/ exists resource action,
                 resource_action p resource action
                 /\ (resource +:+ ":*") ∈ default [] (perms !! role)))
  /\ (forall p, perms !! role = None -> p <> "" ->
        permission_granted perms role (Some p) = false)
  /\ ("users:*" ∈ default [] (perms !! role) ->
        permission_granted perms role (Some "users:read") = true
        /\ permission_granted perms role (Some "users:write") = true
        /\ permission_granted perms role (Some "users:delete") = true)
  /\ (perms !! role = Some ["users:*"] ->
        permission_granted perms role (Some "trips:read") = false).
Proof.
  assert (Hsome : forall p, p <> "" ->
            permission_granted perms role (Some p)
            = _has_permission perms role p).
  { intros p Hp. unfold permission_granted. simpl.
    destruct (String.eqb_spec p ""); [contradiction|]. simpl.
    apply negb_involutive. }
  split; [|split; [|split]].
  - destruct required as [p|].
    + destruct (String.eqb_spec p "") as [->|Hp].
      * split; [intros _; auto|reflexivity].
      * rewrite (Hsome p Hp), has_permission_spec. split.
        -- intros Hperm. right. right. exists p. split; [reflexivity|exact Hperm].
        -- intros [?|[[= ?]|(q & [= <-] & Hperm)]]; [discriminate|contradiction|exact Hperm].
    + split; [auto|reflexivity].
  - intros p Hnone Hp. rewrite (Hsome p Hp).
    apply not_true_is_false. rewrite has_permission_spec, Hnone. simpl.
    intros [Hin|[Hin|(r & a & _ & Hin)]]; inversion Hin.
  - intros Hin.
    rewrite !Hsome by discriminate. rewrite !has_permission_spec.
    repeat split; right; right; exists "users";
      [exists "read"|exists "write"|exists "delete"];
      (split; [repeat split; reflexivity|exact Hin]).
  - intros Hrole. rewrite Hsome by discriminate.
    unfold _has_permission. rewrite Hrole. reflexivity.
Qed.

(** The deployed mapping: the super role passes for everything, the
    other roles for what they list, an unknown role for nothing. *)
Lemma deployed_mapping_examples :
  (forall p, permission_granted role_permissions "super_admin" (Some p) = true)
  /\ permission_granted role_permissions "admin" (Some "users:delete") = true
  /\ permission_granted role_permissions "support" (Some "users:delete")
     = false
  /\ permission_granted role_permissions "guest" (Some "trips:read") = false.
Proof.
  split; [|repeat split; vm_compute; reflexivity].
  intros p. unfold permission_granted.
  destruct (truthy (Some p)); [|reflexivity].
  unfold _has_permission.
  replace (role_permissions !! "super_admin") with (Some ["*"])
    by (vm_compute; reflexivity).
  reflexivity.
Qed.

End RBAC.

(** ** HMAC signatures *)






Section HMAC.
Context `{Primitives}.
Import CryptographicService.



End HMAC.

(** ** Base64 *)












Lemma urlsafe_b64decode_skips_blank s :
  urlsafe_b64decode (String " " s) = urlsafe_b64decode s.
Proof. reflexivity. Qed.

(** ** Encryption of sensitive data *)


Section Encryption.
Context `{Primitives}.
Variable key : string.
Import CryptographicService.

(** The contract of the Fernet primitive used below: what was
    encrypted under a key decrypts to itself under that key. *)
Hypothesis fernet_round_trip : forall k nonce data,
  fernet_decrypt k (fernet_encrypt k nonce data) = Some data.

Lemma decrypt_ignores_leading_blank c :
  decrypt_sensitive_data key (String " " c) = decrypt_sensitive_data key c.
Proof.
  unfold decrypt_sensitive_data. rewrite urlsafe_b64decode_skips_blank.
  reflexivity.
Qed.


End Encryption.


(** ** Token verification *)

Section VerifyToken.
Context `{Primitives}.
Variable key : string.
Import JWTService.



End VerifyToken.

(** ** Session creation and the concurrency cap *)

Lemma fold_min_spec {A} (key : A -> Z) (l : list A) (x : A) :
  let m := fold_left (fun best y => if key y <? key best then y else best) l x in
  (m = x \/ In m l) /\ key m <= key x /\ forall y, In y l -> key m <= key y.
Proof.
  revert x. induction l as [|a l IH]; intros x; simpl.
  - split; [auto|]. split; [lia|]. intros y [].
  - destruct (Z.ltb_spec (key a) (key x)) as [Hlt|Hge].
    + destruct (IH a) as (Hin & Hle & Hall).
      split; [destruct Hin; auto|]. split; [lia|].
      intros y [<-|Hy]; auto.
    + destruct (IH x) as (Hin & Hle & Hall).
      split; [destruct Hin; auto|]. split; [lia|].
      intros y [<-|Hy]; [lia|auto].
Qed.

Lemma py_min_spec {A} (key : A -> Z) (l : list A) :
  l <> [] ->
  exists m, py_min key l = Some m /\ In m l /\ forall y, In y l -> key m <= key y.
Proof.
  destruct l as [|x l]; [congruence|]. intros _.
  destruct (fold_min_spec key l x) as (Hin & Hle & Hall).
  eexists. split; [reflexivity|]. split.
  - simpl. destruct Hin as [->|Hin]; auto.
  - intros y [<-|Hy]; auto.
Qed.

Lemma active_sessions_query_spec user now db i s :
  In (i, s) (active_sessions_query user now db)
  <-> user_sessions db !! i = Some s /\ active_filter user now s = true.
Proof.
  unfold active_sessions_query. rewrite filter_In. simpl.
  rewrite <- list_elem_of_In, elem_of_lookup_imap. split.
  - intros [(j & x & [= -> ->] & Hj) Hf]. auto.
  - intros [Hi Hf]. split; [eauto|assumption].
Qed.


(** At the cap, with a risk score that is set (by the caller or by the
    new-country rule), the oldest row of the query is revoked in the
    working copy. *)
Lemma detect_over_the_cap user session now t :
  SecurityConfig.MAX_CONCURRENT_SESSIONS
    <= Z.of_nat (length (active_sessions_query user now (working t))) ->
  new_country session
    (known_countries (active_sessions_query user now (working t))) = true
  \/ is_Some (UserSession.risk_score session) ->
  exists session' t' risk row oldest,
    detect_suspicious_session user session now t = (Return session', t')
    /\ UserSession.risk_score session' = Some risk /\ 50 <= risk
    /\ user_sessions (working t) !! row = Some oldest
    /\ active_filter user now oldest = true
    /\ (forall j s, user_sessions (working t) !! j = Some s ->
          active_filter user now s = true ->
          UserSession.created_at oldest <= UserSession.created_at s)
    /\ user_sessions (working t')
       = <[row := UserSession.revoke now oldest]> (user_sessions (working t))
    /\ users (working t') = users (working t)
    /\ refresh_tokens (working t') = refresh_tokens (working t)
    /\ committed t' = committed t.
Proof.
  intros Hcap Hrisk. unfold detect_suspicious_session. run_handler.
  assert (Hne : active_sessions_query user now (working t) <> []).
  { intros E. rewrite E in Hcap. simpl in Hcap.
    unfold SecurityConfig.MAX_CONCURRENT_SESSIONS in Hcap. lia. }
  destruct (py_min_spec (fun p => UserSession.created_at (snd p)) _ Hne)
    as ([row oldest] & Hmin & Hin & Hleast).
  apply active_sessions_query_spec in Hin as [Hrow Hact].
  assert (Hall : forall j s, user_sessions (working t) !! j = Some s ->
            active_filter user now s = true ->
            UserSession.created_at oldest <= UserSession.created_at s).
  { intros j s Hj Hs. apply (Hleast (j, s)).
    apply active_sessions_query_spec. auto. }
  apply Z.leb_le in Hcap.
  destruct (active_sessions_query user now (working t)) as [|a l] eqn:Hq;
    [congruence|].
  destruct (new_country session (known_countries (a :: l))) eqn:Hnew;
    cbn [fst snd working committed].
  - rewrite Hcap. cbn [UserSession.risk_score UserSession.set_risk_score].
    rewrite Hmin. eexists _, _, _, row, oldest.
    split; [reflexivity|]. simpl. split; [reflexivity|]. split; [lia|].
    auto 10.
  - destruct Hrisk as [[=]|[r Hr]].
    rewrite Hcap, Hr, Hmin. eexists _, _, _, row, oldest.
    split; [reflexivity|]. simpl. split; [reflexivity|]. split; [lia|].
    auto 10.
Qed.

(** At the cap, for a session whose risk score was never assigned and
    whose country is not new, [max(session.risk_score, 50)] raises and
    nothing has been changed. *)
Lemma detect_raises_at_the_cap user session now t :
  SecurityConfig.MAX_CONCURRENT_SESSIONS
    <= Z.of_nat (length (active_sessions_query user now (working t))) ->
  new_country session
    (known_countries (active_sessions_query user now (working t))) = false ->
  UserSession.risk_score session = None ->
  detect_suspicious_session user session now t = (Raise max_type_error, t).
Proof.
  intros Hcap Hnew Hrisk. unfold detect_suspicious_session. run_handler.
  apply Z.leb_le in Hcap.
  destruct (active_sessions_query user now (working t)) as [|a l] eqn:Hq.
  - simpl in Hcap. discriminate.
  - rewrite Hnew. cbn [fst snd]. rewrite Hcap, Hrisk. reflexivity.
Qed.

(** Claim C6, where the code departs from it. A session that
    [create_user_session] constructs has no [risk_score] until it is
    flushed. When the active-session query returns at least
    [MAX_CONCURRENT_SESSIONS] rows and the country of the request is
    not new (so that the new-country rule has not assigned the score),
    [max(session.risk_score, 50)] raises [TypeError]: the session is not
    created, no session is revoked, and the database is left as it
    was. *)
Theorem concurrency_cap_raises_for_a_known_country
    (user : User.t) (request : Request) (remember : bool) (now : Z)
    (entropy : Entropy) (db : Database) :
  SecurityConfig.MAX_CONCURRENT_SESSIONS
    <= Z.of_nat (length (active_sessions_query user now db)) ->
  new_country (new_session user request remember now entropy)
    (known_countries (active_sessions_query user now db)) = false ->
  run (create_user_session user request remember now entropy) db
  = (Raise max_type_error, db).
Proof.
  intros Hcap Hnew. unfold create_user_session, run, bind.
  rewrite detect_raises_at_the_cap; auto.
Qed.

(** On the path where the score has been assigned (a request from a
    new country) the eviction works: the new session gets a score of
    at least 50, the oldest row of the query is revoked and every
    other row is kept. *)
Lemma cap_eviction_from_a_new_country
    (user : User.t) (request : Request) (remember : bool) (now : Z)
    (entropy : Entropy) (db : Database) :
  SecurityConfig.MAX_CONCURRENT_SESSIONS
    <= Z.of_nat (length (active_sessions_query user now db)) ->
  new_country (new_session user request remember now entropy)
    (known_countries (active_sessions_query user now db)) = true ->
  exists session' db' risk row oldest,
    run (create_user_session user request remember now entropy) db
    = (Return session', db')
    /\ UserSession.risk_score session' = Some risk /\ 50 <= risk
    /\ user_sessions db'
       = <[row := UserSession.revoke now oldest]> (user_sessions db)
         ++ [session']
    /\ user_sessions db !! row = Some oldest
    /\ active_filter user now oldest = true
    /\ (forall j s, user_sessions db !! j = Some s ->
          active_filter user now s = true ->
          UserSession.created_at oldest <= UserSession.created_at s)
    /\ (forall j s, j <> row -> user_sessions db !! j = Some s ->
          user_sessions db' !! j = Some s).
Proof.
  intros Hcap Hnew. unfold create_user_session.
  destruct (detect_over_the_cap user
              (new_session user request remember now entropy) now
              (mkTxn db db) Hcap (or_introl Hnew))
    as (session' & t' & risk & row & oldest & Hrun & Hrisk & Hfifty & Hrow
        & Hact & Hleast & Hrows & _).
  simpl in *.
  exists (UserSession.flush session'), (working
    (mkTxn (committed t')
       (set_user_sessions (fun l => l ++ [UserSession.flush session'])
          (working t')))), risk, row, oldest.
  split; [run_handler; rewrite Hrun; reflexivity|].
  unfold UserSession.flush. rewrite Hrisk. simpl.
  split; [reflexivity|]. split; [exact Hfifty|]. rewrite Hrows.
  split; [reflexivity|]. split; [exact Hrow|]. split; [exact Hact|].
  split; [exact Hleast|].
  intros j s Hj Hs. apply lookup_app_l_Some.
  rewrite list_lookup_insert_ne by congruence. exact Hs.
Qed.

(** Session creation either commits with users and refresh tokens as
    they were in the working copy, or raises with the session as it
    was. *)
Lemma create_user_session_effect user request remember now entropy t :
  match create_user_session user request remember now entropy t with
  | (Return _, t') =>
      committed t' = working t'
      /\ users (working t') = users (working t)
      /\ refresh_tokens (working t') = refresh_tokens (working t)
  | (Raise e, t') => e = max_type_error /\ t' = t
  end.
Proof.
  unfold create_user_session.
  set (s := new_session user request remember now entropy).
  destruct (Z.le_gt_cases SecurityConfig.MAX_CONCURRENT_SESSIONS
              (Z.of_nat (length (active_sessions_query user now (working t)))))
    as [Hcap|Hfew].
  - destruct (new_country s
                (known_countries (active_sessions_query user now (working t))))
      eqn:Hnew.
    + destruct (detect_over_the_cap user s now t Hcap (or_introl Hnew))
        as (s' & t' & risk & row & oldest & Hrun & _ & _ & _ & _ & _ & _
            & Hu & Hr & _).
      run_handler. rewrite Hrun. simpl. auto.
    + run_handler.
      rewrite (detect_raises_at_the_cap user s now t Hcap Hnew eq_refl).
      auto.
  - pose proof Hfew as Hfew'. apply Z.leb_gt in Hfew'.
    unfold detect_suspicious_session. run_handler. rewrite Hfew'.
    destruct (active_sessions_query user now (working t)); simpl; [auto|].
    destruct (new_country _ _); simpl; auto.
Qed.
(** ** Account lockout *)


Section Lockout.
Context `{Primitives}.
Variable key : string.







End Lockout.

(** ** Token refresh in the deployed module *)

Section RefreshDeployed.
Context `{Primitives}.
Variable key : string.

Lemma hashlib_unbound : bool_decide ("hashlib" ∈ auth_globals) = false.
Proof. vm_compute. reflexivity. Qed.

(** Claim C3 (the refresh endpoint of the deployed module). [auth.py]
    never binds [hashlib]. So a call whose token passes
    [verify_token] and whose payload carries [sub], [session_id] and
    [family_id] raises [NameError] at the hash computation, which the
    catch-all turns into HTTP 500 "Token refresh service temporarily
    unavailable"; and for every input the handler ends in an
    [HTTPException] with the database untouched: the rotation branch is
    never reached. *)
Theorem refresh_without_hashlib_never_succeeds
    (token : string) (http_request : Request) (now : Z)
    (entropy : Entropy) (db : Database) :
  (forall payload,
      JWTService.verify_token key token "refresh" now = Return payload ->
      truthy (Claims.sub payload) && truthy (Claims.session_id payload)
        && truthy (Claims.family_id payload) = true ->
      refresh_access_token_try key auth_globals token http_request now
        entropy (mkTxn db db)
      = (Raise (NameError "hashlib"), mkTxn db db)
      /\ run (refresh_access_token key auth_globals token http_request now
                entropy) db
         = (Raise (HTTPException 500
                     "Token refresh service temporarily unavailable"), db))
  /\ exists status_code detail,
       run (refresh_access_token key auth_globals token http_request now
              entropy) db
       = (Raise (HTTPException status_code detail), db).
Proof.
  unfold refresh_access_token, refresh_access_token_try.
  run_handler. rewrite hashlib_unbound.
  split.
  - intros payload -> ->. simpl. split; reflexivity.
  - destruct (JWTService.verify_token key token "refresh" now) as [payload|e].
    + destruct (truthy (Claims.sub payload) && truthy (Claims.session_id payload)
                && truthy (Claims.family_id payload)); simpl; eauto.
    + destruct e; simpl; eauto.
Qed.

End RefreshDeployed.

(** ** Token refresh once the hash is computed *)

Section Refresh.
Context `{Primitives}.
Variable key : string.











End Refresh.

(** ** Refresh-token rows only advance *)

Lemma advance_refl r : advance r r.
Proof. unfold advance. tauto. Qed.

Lemma advance_trans r1 r2 r3 : advance r1 r2 -> advance r2 r3 -> advance r1 r3.
Proof. unfold advance. intros H12 H23. tauto. Qed.

Lemma advance_mark_used now r : advance r (RefreshToken.mark_used now r).
Proof. unfold advance. simpl. intuition eauto. Qed.

Lemma advance_revoke now r : advance r (RefreshToken.revoke now r).
Proof. unfold advance. simpl. intuition eauto. Qed.

Lemma rows_advance_refl l : rows_advance l l.
Proof. intros i r Hi. exists r. split; [exact Hi|apply advance_refl]. Qed.

Lemma rows_advance_trans l1 l2 l3 :
  rows_advance l1 l2 -> rows_advance l2 l3 -> rows_advance l1 l3.
Proof.
  intros H12 H23 i r Hi.
  destruct (H12 i r Hi) as (r2 & Hi2 & Ha).
  destruct (H23 i r2 Hi2) as (r3 & Hi3 & Hb).
  exists r3. split; [exact Hi3|eapply advance_trans; eassumption].
Qed.

Lemma rows_advance_app l l1 l2 :
  rows_advance l l1 -> rows_advance l (l1 ++ l2).
Proof.
  intros Hl i r Hi. destruct (Hl i r Hi) as (r' & Hi' & Ha).
  exists r'. split; [|exact Ha].
  apply lookup_app_l_Some. exact Hi'.
Qed.

Lemma rows_advance_bulk (c : RefreshToken.t -> bool) now l :
  rows_advance l ((fun r => if c r then RefreshToken.revoke now r else r) <$> l).
Proof.
  intros i r Hi. rewrite list_lookup_fmap, Hi. simpl.
  eexists. split; [reflexivity|].
  destruct (c r); [apply advance_revoke|apply advance_refl].
Qed.

Lemma rows_advance_mark_used l row record now :
  l !! row = Some record ->
  rows_advance l (<[row := RefreshToken.mark_used now record]> l).
Proof.
  intros Hrow i r Hi. destruct (decide (i = row)) as [->|Hne].
  - rewrite Hrow in Hi. injection Hi as <-.
    exists (RefreshToken.mark_used now record). split.
    + apply list_lookup_insert_eq. eapply lookup_lt_Some; eassumption.
    + apply advance_mark_used.
  - exists r. split; [|apply advance_refl].
    rewrite list_lookup_insert_ne by congruence. exact Hi.
Qed.

Section Monotone.
Context `{Primitives}.
Variable key : string.

Lemma login_advances request http_request now entropy db :
  rows_advance (refresh_tokens db)
    (refresh_tokens
       (snd (run (login_user key request http_request now entropy) db))).
Proof.
  unfold login_user, run. unfold reraise_http, bind at 1, query.
  cbn [working].
  destruct (list_find _ (users db)) as [[row account]|]; simpl;
    [|apply rows_advance_refl].
  destruct (User.is_locked account now); simpl; [apply rows_advance_refl|].
  destruct (CryptographicService.verify_password _ _ _); simpl.
  - destruct (User.is_active _ now); simpl; [|apply rows_advance_refl].
    unfold bind at 1, execute at 1. unfold bind at 1. cbn [working committed].
    match goal with
    | |- context [create_user_session ?u ?r ?m ?n ?e ?t] =>
        pose proof (create_user_session_effect u r m n e t) as Heff;
        destruct (create_user_session u r m n e t) as [[s|ex] t']
    end.
    + destruct Heff as (_ & _ & Ht). run_handler. simpl in *. rewrite Ht.
      apply rows_advance_app, rows_advance_refl.
    + destruct Heff as [-> ->]. simpl. apply rows_advance_refl.
  - run_handler. destruct (_ <=? _); simpl; apply rows_advance_refl.
Qed.

Lemma refresh_advances globals token http_request now entropy db :
  rows_advance (refresh_tokens db)
    (refresh_tokens
       (snd (run (refresh_access_token key globals token http_request now
                    entropy) db))).
Proof.
  unfold refresh_access_token, refresh_access_token_try. run_handler.
  destruct (JWTService.verify_token _ _ _ _) as [payload|e]; simpl;
    [|destruct e; apply rows_advance_refl].
  destruct (truthy _ && _ && _); simpl; [|apply rows_advance_refl].
  destruct (bool_decide _); simpl; [|apply rows_advance_refl].
  destruct (list_find _ (refresh_tokens db)) as [[row record]|] eqn:Hrow;
    simpl; [|apply rows_advance_refl].
  destruct (RefreshToken.is_valid record now); simpl.
  - destruct (list_find _ (users db)) as [[urow user]|]; simpl;
      [|apply rows_advance_refl].
    destruct (list_find _ (user_sessions db)) as [[srow session]|]; simpl;
      [|apply rows_advance_refl].
    destruct (negb _ || negb _); simpl; [apply rows_advance_refl|].
    apply rows_advance_app, rows_advance_mark_used.
    apply list_find_Some in Hrow. tauto.
  - apply rows_advance_bulk.
Qed.

Lemma logout_advances http_request current_user now db :
  rows_advance (refresh_tokens db)
    (refresh_tokens
       (snd (run (logout_user http_request current_user now) db))).
Proof.
  unfold logout_user. run_handler.
  destruct (String.prefix _ _); simpl; [|apply rows_advance_refl].
  destruct (truthy _); simpl; [|apply rows_advance_refl].
  destruct (list_find _ (user_sessions db)) as [[srow session]|]; simpl;
    [|apply rows_advance_refl].
  apply rows_advance_bulk.
Qed.

Lemma step_advances db db' :
  step key db db' -> rows_advance (refresh_tokens db) (refresh_tokens db').
Proof.
  intros []; auto using login_advances, refresh_advances, logout_advances.
Qed.

Lemma steps_advance db db' :
  rtc (step key) db db' ->
  rows_advance (refresh_tokens db) (refresh_tokens db').
Proof.
  induction 1 as [db|db1 db2 db3 Hstep _ IH].
  - apply rows_advance_refl.
  - eapply rows_advance_trans; [apply step_advances; exact Hstep|exact IH].
Qed.

(** Claim C9 (refresh-token invalidity is monotone). Along any
    sequence of login, refresh and logout calls every [RefreshToken]
    row stays at its position, [is_used] and [is_revoked] once true
    stay true, a flag that became true carries its stamp, and a row
    that is used or revoked has [is_valid()] false at every time after
    every later operation. *)
Theorem refresh_token_invalidity_is_monotone
    (db db' : Database) (row : nat) (r : RefreshToken.t) :
  rtc (step key) db db' ->
  refresh_tokens db !! row = Some r ->
  exists r',
    refresh_tokens db' !! row = Some r'
    /\ (RefreshToken.is_used r = true -> RefreshToken.is_used r' = true)
    /\ (RefreshToken.is_revoked r = true -> RefreshToken.is_revoked r' = true)
    /\ (RefreshToken.is_used r' = true ->
        RefreshToken.is_used r = true \/ is_Some (RefreshToken.used_at r'))
    /\ (RefreshToken.is_revoked r' = true ->
        RefreshToken.is_revoked r = true
        \/ is_Some (RefreshToken.revoked_at r'))
    /\ (RefreshToken.is_used r || RefreshToken.is_revoked r = true ->
        forall t, RefreshToken.is_valid r' t = false).
Proof.
  intros Hsteps Hrow.
  destruct (steps_advance db db' Hsteps row r Hrow)
    as (r' & Hrow' & Hu & Hr & _ & _ & Hsu & Hsr).
  exists r'. repeat (split; [assumption|]).
  intros Hflag t. unfold RefreshToken.is_valid.
  apply orb_true_iff in Hflag as [Hf|Hf].
  - rewrite (Hu Hf). rewrite andb_false_r. reflexivity.
  - rewrite (Hr Hf). reflexivity.
Qed.

End Monotone.

(** ** The model on the reference data *)

Section OnReference.
Import Reference.




(** The token that a login hands out is not exchangeable even with
    [hashlib] bound: it names the opaque [session_id], and the handler
    looks that value up as a primary key. *)
Lemma login_token_names_the_opaque_session_id :
  exists response db1,
    login right_login 2000 "5" db0 = (Return response, db1)
    /\ refresh_token response = "jwt.r5"
    /\ (forall P : Primitives,
          JWTService.token
            (JWTService.create_refresh_token (H := P) service_key "u1"
               "sid-s5" None 2000 "fam5" "r5")
          = jwt_encode (Primitives := P) login_claims service_key)
    /\ (exists row record,
          presented_row (H := primitives) "jwt.r5" login_claims db1
            = Some (row, record)
          /\ RefreshToken.is_valid record 2100 = true)
    /\ refresh bound_globals "jwt.r5" 2100 "6" db1
       = (Raise (HTTPException 401 "Invalid session or user"), db1).
Proof.
  eexists _, _. split; [vm_compute; reflexivity|].
  split; [reflexivity|]. split; [reflexivity|]. split.
  - eexists _, _. split; vm_compute; reflexivity.
  - vm_compute. reflexivity.
Qed.



(** C3, at the stored token of the reference database. *)
Lemma refresh_without_hashlib_witness :
  refresh_access_token_try (H := primitives) service_key auth_globals "jwt.r1"
    request0 2000 (entropy "7") (mkTxn db0 db0)
  = (Raise (NameError "hashlib"), mkTxn db0 db0)
  /\ refresh auth_globals "jwt.r1" 2000 "7" db0
     = (Raise (HTTPException 500
                 "Token refresh service temporarily unavailable"), db0).
Proof.
  exact (proj1 (refresh_without_hashlib_never_succeeds (H := primitives) service_key
                  "jwt.r1" request0 2000 (entropy "7") db0)
           refresh_claims eq_refl eq_refl).
Defined.



(** C6, at the three live sessions of the reference account: a fourth
    session from the same country is not created and nothing is
    revoked. *)
Lemma concurrency_cap_witness :
  run (create_user_session alice request0 false 2000 (entropy "9"))
    db_three_sessions
  = (Raise max_type_error, db_three_sessions).
Proof.
  apply (concurrency_cap_raises_for_a_known_country alice request0 false
           2000 (entropy "9") db_three_sessions).
  - vm_compute. discriminate.
  - vm_compute. reflexivity.
Defined.

(** The same at the endpoint: the right password is answered with 500
    and the database is left as it was. *)
Lemma login_at_the_cap_fails :
  login right_login 2000 "9" db_three_sessions
  = (Raise (HTTPException 500
              "Authentication service temporarily unavailable"),
     db_three_sessions).
Proof. vm_compute. reflexivity. Qed.

(** From a new country the fourth session is created and the oldest
    live session, created at 100 in row 2, is revoked. *)
Lemma fourth_session_from_a_new_country :
  exists session' db',
    run (create_user_session alice request_fr false 2000 (entropy "9"))
      db_three_sessions = (Return session', db')
    /\ UserSession.risk_score session' = Some 75
    /\ UserSession.is_suspicious session' = true
    /\ user_sessions db'
       = <[2%nat := UserSession.revoke 2000 (session "s2" 100 9000)]>
           (user_sessions db_three_sessions) ++ [session'].
Proof. eexists _, _. repeat split. Qed.


(** C9, along a rotation followed by a replay. *)
Lemma refresh_token_monotone_witness :
  let db1 :=
    snd (refresh bound_globals "jwt.r1" 2000 "7" db0) in
  let db2 :=
    snd (refresh bound_globals "jwt.r1" 2500 "8" db1) in
  exists r',
    refresh_tokens db2 !! 0%nat = Some r'
    /\ RefreshToken.is_used r' = true
    /\ forall t, RefreshToken.is_valid r' t = false.
Proof.
  intros db1 db2.
  destruct (refresh_token_invalidity_is_monotone (H := primitives) service_key
              db1 db2 0%nat
              (RefreshToken.mark_used 2000 (token_row "jwt.r1" "fam1")))
    as (r' & Hrow & Hused & _ & _ & _ & Hinvalid).
  - apply rtc_once.
    exact (step_refresh (H := primitives) service_key bound_globals "jwt.r1" request0
             2500 (entropy "8") db1).
  - reflexivity.
  - exists r'. split; [exact Hrow|]. split; [apply Hused; reflexivity|].
    apply Hinvalid. reflexivity.
Defined.


End OnReference.
